(** * Discretized spaces of ODL ([odl/discr/discretization.py])

    A shallow embedding of [DiscretizedSpace], [DiscretizedSpaceElement]
    and the backend selector [tspace_type], together with the properties
    the specification states about them.

    Python values are modelled as follows.
    - Exceptions are data: a call returns [Return v] or [Raise e].
    - The collaborators the module imports ([Set], [TensorSpace], [Tensor],
      the dtype predicates of [odl.util], the backend registry) are
      interfaces: type classes whose operations stand for the methods the
      module calls on them.
    - Storage handles are locations of a store of arrays, so that in-place
      primitives and aliasing are visible. *)

From Stdlib Require Import ZArith.
From stdpp Require Import base option strings pretty gmap list.

Open Scope string_scope.

(** ** Exceptions and results *)

Inductive Exception : Type :=
| TypeError (msg : string)
| ValueError (msg : string)
| NotImplementedError (msg : string)
| AttributeError (msg : string).

Inductive result (A : Type) : Type :=
| Return (a : A)
| Raise (e : Exception).

Arguments Return {A} a.
Arguments Raise {A} e.

#[global] Instance result_ret : MRet result := fun A a => Return a.

#[global] Instance result_bind : MBind result := fun A B f m =>
  match m with
  | Return a => f a
  | Raise e => Raise e
  end.

#[global] Instance result_fmap : FMap result := fun A B f m =>
  match m with
  | Return a => Return (f a)
  | Raise e => Raise e
  end.

Definition is_TypeError {A} (r : result A) : bool :=
  match r with Raise (TypeError _) => true | _ => false end.

Definition is_NotImplementedError {A} (r : result A) : bool :=
  match r with Raise (NotImplementedError _) => true | _ => false end.

Definition is_Return {A} (r : result A) : bool :=
  match r with Return _ => true | _ => false end.

(** The error kinds of the module, and the outcome of a call with the
    message dropped. *)
Inductive ErrorKind : Type :=
| KTypeError | KValueError | KNotImplementedError | KAttributeError.

Definition kind (e : Exception) : ErrorKind :=
  match e with
  | TypeError _ => KTypeError
  | ValueError _ => KValueError
  | NotImplementedError _ => KNotImplementedError
  | AttributeError _ => KAttributeError
  end.

Definition outcome {A} (r : result A) : A + ErrorKind :=
  match r with
  | Return a => inl a
  | Raise e => inr (kind e)
  end.

(** [contains msg s]: the text [s] occurs in the message [msg]. *)
Definition contains (msg s : string) : Prop :=
  exists pre post : string, msg = pre +:+ s +:+ post.

(** [repr(x)] and [str(x)], as used by [str.format]. *)
Class Repr (A : Type) : Type := repr : A -> string.

(** ** The values [tspace_type] inspects *)

(** Classes that can be the type of a [field] attribute. *)
Inductive PyClass : Type :=
| NoneType
| TypeType
| RealNumbers
| ComplexNumbers
| OtherClass (name : string).

#[global] Instance PyClass_eq_dec : EqDecision PyClass.
Proof. solve_decision. Defined.

Inductive PyVal : Type :=
| VNone                   (* the singleton [None] *)
| VClass (c : PyClass)    (* a class object, as returned by [type(...)] *)
| VObject (c : PyClass).  (* an instance of class [c], e.g. [RealNumbers()] *)

#[global] Instance PyVal_eq_dec : EqDecision PyVal.
Proof. solve_decision. Defined.

(** [type(v)]. Note [type(None)] is the class [NoneType], not [None]. *)
Definition type (v : PyVal) : PyVal :=
  match v with
  | VNone => VClass NoneType
  | VClass _ => VClass TypeType
  | VObject c => VClass c
  end.

(** [v is None]. *)
Definition is_None (v : PyVal) : bool :=
  match v with VNone => true | _ => false end.

(** [a == b] on [None] and class objects, where it is identity. *)
Definition py_eq (a b : PyVal) : bool := bool_decide (a = b).

(** A template space: the attributes [getattr] can see, and its [repr]. *)
Record TemplateSpace : Type := mkTemplateSpace {
  attributes : gmap string PyVal;
  space_repr : string
}.

#[global] Instance TemplateSpace_repr : Repr TemplateSpace := space_repr.

(** [getattr(o, name, dflt)]. *)
Definition getattr (o : TemplateSpace) (name : string) (dflt : PyVal) : PyVal :=
  default dflt (attributes o !! name).

(** The dtype predicates of [odl.util]. *)
Class DtypeUtil (Dtype : Type) : Type := {
  is_real_floating_dtype : Dtype -> bool;
  is_complex_floating_dtype : Dtype -> bool;
  is_numeric_dtype : Dtype -> bool
}.

(** ** The backend selector *)

Section Selector.
Context {Dtype TensorSpaceType : Type}.
Context `{!DtypeUtil Dtype, !Repr Dtype, !Repr PyVal, !Repr string}.

(** Modelled from the spec: [odl.space.entry_points.tensor_space_impl],
    the lookup function of the backend registry.  The registry is a flat
    map from backend names to tensor-space types; the lookup fails with a
    distinguishable error ([ValueError]) when the name is unregistered. *)
Definition tensor_space_impl (TENSOR_SPACE_IMPLS : gmap string TensorSpaceType)
    (impl : string) : result TensorSpaceType :=
  match TENSOR_SPACE_IMPLS !! impl with
  | Some T => Return T
  | None => Raise (ValueError ("`impl` " +:+ repr impl +:+
              " does not correspond to a valid tensor space implmentation"))
  end.

Definition real_msg (dtype : Dtype) (field_type : PyVal) : string :=
  "real floating data type " +:+ repr dtype +:+
  " requires space field to be of type RealNumbers, got " +:+ repr field_type.

Definition complex_msg (dtype : Dtype) (field_type : PyVal) : string :=
  "complex floating data type " +:+ repr dtype +:+
  " requires space field to be of type ComplexNumbers, got " +:+ repr field_type.

Definition numeric_msg (dtype : Dtype) (field_type : PyVal) : string :=
  "non-floating data type " +:+ repr dtype +:+
  " requires space field to be of type RealNumbers, got " +:+ repr field_type.

Definition no_tspace_msg (space : TemplateSpace) (impl : string) : string :=
  "no corresponding tensor space available for space " +:+ repr space +:+
  " and implementation " +:+ repr impl.

(** [tspace_type(space, impl, dtype=None)]; the registry, a module-level
    dictionary in the source, is passed explicitly. *)
Definition tspace_type (TENSOR_SPACE_IMPLS : gmap string TensorSpaceType)
    (space : TemplateSpace) (impl : string) (dtype : option Dtype)
    : result TensorSpaceType :=
  let field_type := type (getattr space "field" VNone) in
  match dtype with
  | None => Return tt
  | Some dtype =>
      if is_real_floating_dtype dtype then
        if is_None field_type || py_eq field_type (VClass ComplexNumbers)
        then Raise (TypeError (real_msg dtype field_type))
        else Return tt
      else if is_complex_floating_dtype dtype then
        if is_None field_type || py_eq field_type (VClass RealNumbers)
        then Raise (TypeError (complex_msg dtype field_type))
        else Return tt
      else if is_numeric_dtype dtype then
        if py_eq field_type (VClass ComplexNumbers)
        then Raise (TypeError (numeric_msg dtype field_type))
        else Return tt
      else Return tt
  end ;;
  match tensor_space_impl TENSOR_SPACE_IMPLS impl with
  | Return T => Return T
  | Raise (ValueError _) => Raise (NotImplementedError (no_tspace_msg space impl))
  | Raise e => Raise e
  end.
End Selector.

(** ** Objects, stores and the collaborating interfaces *)

(** Storage handles are locations in a store of arrays over the scalars [F]. *)
Abbreviation loc := positive.
Abbreviation Store F := (gmap positive (list F)).

(** A computation that reads and writes the store and may raise; the
    store it leaves behind is kept also when it raises. *)
Definition Py (F A : Type) : Type := Store F -> result A * Store F.

#[global] Instance Py_ret {F} : MRet (Py F) := fun A a st => (Return a, st).

#[global] Instance Py_bind {F} : MBind (Py F) := fun A B f m st =>
  match m st with
  | (Return a, st') => f a st'
  | (Raise e, st') => (Raise e, st')
  end.

Definition raise {F A} (e : Exception) : Py F A := fun st => (Raise e, st).

(** What the module asks of an arbitrary Python object [Obj] that is
    passed to it as [fspace], as [tspace] or as the right operand of [==]. *)
Class PyObject (Obj : Type) : Type := {
  isinstance_Set : Obj -> bool;          (* isinstance(o, Set) *)
  isinstance_TensorSpace : Obj -> bool;  (* isinstance(o, TensorSpace) *)
  obj_eq : Obj -> Obj -> bool;           (* o1 == o2 *)
  obj_hash : Obj -> Z;                   (* hash(o) *)
  obj_tensor : Obj -> option loc         (* o.tensor, when o has it *)
}.

(** The tensor-space capability: attributes and raw primitives of a
    [tspace], the latter acting on storage handles. *)
Class TensorSpaceCapability (Obj Dtype F : Type) : Type := {
  ts_shape : Obj -> list Z;
  ts_dtype : Obj -> Dtype;
  ts_impl : Obj -> string;
  ts_is_weighted : Obj -> option bool;   (* absent on some backends *)
  ts_zero : Obj -> Py F loc;
  ts_one : Obj -> Py F loc;
  ts_lincomb : Obj -> F -> loc -> F -> loc -> loc -> Py F unit;
  ts_dist : Obj -> loc -> loc -> Py F F;
  ts_norm : Obj -> loc -> Py F F;
  ts_inner : Obj -> loc -> loc -> Py F F;
  ts_multiply : Obj -> loc -> loc -> loc -> Py F unit;
  ts_divide : Obj -> loc -> loc -> loc -> Py F unit
}.

(** The methods of a storage handle ([Tensor] of the backend). *)
Class TensorCapability (Dtype F : Type) : Type := {
  tensor_copy : loc -> Py F loc;
  tensor_astype : loc -> Dtype -> Py F loc;
  tensor_eq : loc -> loc -> Store F -> bool
}.

(** ** [DiscretizedSpace] *)

(** Values stored in the attribute dictionary of an instance. *)
Inductive Attr (Obj Dtype : Type) : Type :=
| AShape (s : list Z)
| ADtype (d : Dtype)
| AObj (o : Obj).

Arguments AShape {Obj Dtype} s.
Arguments ADtype {Obj Dtype} d.
Arguments AObj {Obj Dtype} o.

(** A constructed space: its identity, its class, and the four attributes
    the constructor sets. *)
Record DiscretizedSpace (Obj Dtype : Type) : Type := mkDiscretizedSpace {
  oid : positive;
  cls : string;
  shape : list Z;
  dtype : Dtype;
  fspace : Obj;
  tspace : Obj
}.

Arguments mkDiscretizedSpace {Obj Dtype}.
Arguments oid {Obj Dtype} _.
Arguments cls {Obj Dtype} _.
Arguments shape {Obj Dtype} _.
Arguments dtype {Obj Dtype} _.
Arguments fspace {Obj Dtype} _.
Arguments tspace {Obj Dtype} _.

(** [a is b] on spaces. *)
Definition is_ {Obj Dtype} (a b : DiscretizedSpace Obj Dtype) : bool :=
  bool_decide (oid a = oid b).

(** One object per identity: two references with the same identity denote
    the same object. *)
Definition same_object {Obj Dtype} (a b : DiscretizedSpace Obj Dtype) : Prop :=
  oid a = oid b -> a = b.

Record DiscretizedSpaceElement (Obj Dtype : Type) : Type := mkElement {
  space : DiscretizedSpace Obj Dtype;
  tensor : loc
}.

Arguments mkElement {Obj Dtype}.
Arguments space {Obj Dtype} _.
Arguments tensor {Obj Dtype} _.

(** What can be passed as [inp] to [element]. *)
Inductive Inp (Obj : Type) : Type :=
| InpTensor (t : loc)
| InpObj (o : Obj).

Arguments InpTensor {Obj} t.
Arguments InpObj {Obj} o.

(** The right operand of [DiscretizedSpaceElement.__eq__]. *)
Inductive Operand (Obj Dtype : Type) : Type :=
| OElement (e : DiscretizedSpaceElement Obj Dtype)
| OObject (o : Obj).

Arguments OElement {Obj Dtype} e.
Arguments OObject {Obj Dtype} o.

(** The parts of the base classes ([TensorSpace], [LinearSpace]) and of
    Python's runtime that the module calls but does not define. *)
Class BaseClasses (Obj Dtype F : Type) : Type := {
  TensorSpace__eq__ : DiscretizedSpace Obj Dtype -> DiscretizedSpace Obj Dtype -> bool;
  TensorSpace__hash__ : DiscretizedSpace Obj Dtype -> Z;
  TensorSpace__contains__ : DiscretizedSpace Obj Dtype -> Operand Obj Dtype -> bool;
  TensorSpace_astype : DiscretizedSpace Obj Dtype -> Dtype -> result (DiscretizedSpace Obj Dtype);
  hash_int : Z -> Z;
  hash_tuple : list Z -> Z;
  (* the [element] method of the class named [c], when a subclass overrides it *)
  element_override : string ->
    option (DiscretizedSpace Obj Dtype -> option (Inp Obj) ->
            Py F (DiscretizedSpaceElement Obj Dtype))
}.

Section Discretization.
Context {Obj Dtype F : Type}.
Context `{!PyObject Obj, !Repr Obj, !TensorSpaceCapability Obj Dtype F,
          !TensorCapability Dtype F, !BaseClasses Obj Dtype F}.

Local Abbreviation Space := (DiscretizedSpace Obj Dtype).
Local Abbreviation Element := (DiscretizedSpaceElement Obj Dtype).
Local Abbreviation Dict := (gmap string (Attr Obj Dtype)).

(** Modelled from the spec: [TensorSpace.__init__(shape, dtype)] of
    [odl.space.base_tensors], which the constructor calls through
    [super]; the shape and the scalar type are taken verbatim. *)
Definition TensorSpace__init__ (self : Dict) (shape : list Z) (dtype : Dtype)
    : result unit * Dict :=
  (Return tt,
   <["_TensorSpace__dtype" := ADtype dtype]>
     (<["_TensorSpace__shape" := AShape shape]> self)).

Definition fspace_msg (fspace : Obj) : string :=
  "`fspace` must be a `Set` instance, got " +:+ repr fspace.

Definition tspace_msg (tspace : Obj) : string :=
  "`tspace` " +:+ repr tspace +:+ " not a `TensorSpace` instance".

(** [DiscretizedSpace.__init__(self, fspace, tspace)], acting on the
    attribute dictionary of [self]. *)
Definition DiscretizedSpace__init__ (self : Dict) (fspace tspace : Obj)
    : result unit * Dict :=
  if negb (isinstance_Set fspace) then
    (Raise (TypeError (fspace_msg fspace)), self)
  else if negb (isinstance_TensorSpace tspace) then
    (Raise (TypeError (tspace_msg tspace)), self)
  else
    match TensorSpace__init__ self (ts_shape tspace) (ts_dtype tspace) with
    | (Return _, self) =>
        (Return tt,
         <["_DiscretizedSpace__tspace" := AObj tspace]>
           (<["_DiscretizedSpace__fspace" := AObj fspace]> self))
    | (Raise e, self) => (Raise e, self)
    end.

(** Reading the attributes back ([self.shape], [self.dtype],
    [self.fspace], [self.tspace]). *)
Definition get_shape (self : Dict) : option (list Z) :=
  match self !! "_TensorSpace__shape" with Some (AShape s) => Some s | _ => None end.

Definition get_dtype (self : Dict) : option Dtype :=
  match self !! "_TensorSpace__dtype" with Some (ADtype d) => Some d | _ => None end.

Definition get_fspace (self : Dict) : option Obj :=
  match self !! "_DiscretizedSpace__fspace" with Some (AObj o) => Some o | _ => None end.

Definition get_tspace (self : Dict) : option Obj :=
  match self !! "_DiscretizedSpace__tspace" with Some (AObj o) => Some o | _ => None end.

(** The call [C(fspace, tspace)] for [C] the class named [c] ([C] is
    [DiscretizedSpace] or a subclass that inherits [__init__]): a new
    object with identity [i] and an empty dictionary is initialised; the
    call returns it only when [__init__] returns. *)
Definition new_DiscretizedSpace (i : positive) (c : string) (fspace tspace : Obj)
    : result Space :=
  match DiscretizedSpace__init__ ∅ fspace tspace with
  | (Return _, self) =>
      match get_shape self, get_dtype self, get_fspace self, get_tspace self with
      | Some s, Some d, Some f, Some t => Return (mkDiscretizedSpace i c s d f t)
      | _, _, _, _ => Raise (AttributeError "attribute missing")
      end
  | (Raise e, _) => Raise e
  end.

(** [DiscretizedSpace.element(self, inp=None, order=None, **kwargs)]:
    the abstract method. *)
Definition DiscretizedSpace_element (self : Space) (inp : option (Inp Obj))
    : Py F Element :=
  raise (NotImplementedError "abstract method").

(** [self.element(inp)]: the method found on the class of [self]. *)
Definition element (self : Space) (inp : option (Inp Obj)) : Py F Element :=
  match element_override (cls self) with
  | Some f => f self inp
  | None => DiscretizedSpace_element self inp
  end.

(** [DiscretizedSpace.__eq__(self, other)], for [other] being [None] or
    a space. *)
Definition DiscretizedSpace__eq__ (self : Space) (other : option Space) : bool :=
  match other with
  | Some other =>
      if is_ other self then true
      else TensorSpace__eq__ self other &&
           obj_eq (fspace other) (fspace self) &&
           obj_eq (tspace other) (tspace self)
  | None => false
  end.

(** [DiscretizedSpace.__hash__(self)]. *)
Definition DiscretizedSpace__hash__ (self : Space) : Z :=
  hash_tuple [hash_int (TensorSpace__hash__ self);
              obj_hash (fspace self);
              obj_hash (tspace self)].

(** [DiscretizedSpaceElement.__init__(self, space, tensor)]; the base
    initialiser stores [space]. *)
Definition element_type (self : Space) (tensor : loc) : Element :=
  mkElement self tensor.

Definition zero (self : Space) : Py F Element :=
  t ← ts_zero (tspace self); mret (element_type self t).

Definition one (self : Space) : Py F Element :=
  t ← ts_one (tspace self); mret (element_type self t).

Definition impl (self : Space) : string := ts_impl (tspace self).

(** [getattr(self.tspace, 'is_weighted', False)]. *)
Definition is_weighted (self : Space) : bool :=
  default false (ts_is_weighted (tspace self)).

Definition _lincomb (self : Space) (a : F) (x1 : Element) (b : F) (x2 out : Element)
    : Py F unit :=
  ts_lincomb (tspace self) a (tensor x1) b (tensor x2) (tensor out).

Definition _dist (self : Space) (x1 x2 : Element) : Py F F :=
  ts_dist (tspace self) (tensor x1) (tensor x2).

Definition _norm (self : Space) (x : Element) : Py F F :=
  ts_norm (tspace self) (tensor x).

Definition _inner (self : Space) (x1 x2 : Element) : Py F F :=
  ts_inner (tspace self) (tensor x1) (tensor x2).

Definition _multiply (self : Space) (x1 x2 out : Element) : Py F unit :=
  ts_multiply (tspace self) (tensor x1) (tensor x2) (tensor out).

Definition _divide (self : Space) (x1 x2 out : Element) : Py F unit :=
  ts_divide (tspace self) (tensor x1) (tensor x2) (tensor out).

(** ** [DiscretizedSpaceElement] *)

(** [self.space.element(self.tensor.copy())]. *)
Definition copy (self : Element) : Py F Element :=
  t ← tensor_copy (tensor self);
  element (space self) (Some (InpTensor t)).

(** [self.space.astype(dtype).element(self.tensor.astype(dtype))]: the
    receiver is evaluated first, then the argument, then the call. *)
Definition astype (self : Element) (dtype : Dtype) : Py F Element :=
  fun st =>
    match TensorSpace_astype (space self) dtype with
    | Return sp =>
        (t ← tensor_astype (tensor self) dtype;
         element sp (Some (InpTensor t))) st
    | Raise e => (Raise e, st)
    end.

(** [other.tensor]. *)
Definition operand_tensor (other : Operand Obj Dtype) : result loc :=
  match other with
  | OElement e => Return (tensor e)
  | OObject o =>
      match obj_tensor o with
      | Some t => Return t
      | None => Raise (AttributeError "tensor")
      end
  end.

(** [DiscretizedSpaceElement.__eq__(self, other)]:
    [other in self.space and self.tensor == other.tensor]. *)
Definition DiscretizedSpaceElement__eq__ (self : Element) (other : Operand Obj Dtype)
    (st : Store F) : result bool :=
  if TensorSpace__contains__ (space self) other then
    t ← operand_tensor other; mret (tensor_eq (tensor self) t st)
  else Return false.
End Discretization.

(** ** Contracts of the collaborators

    The module is a thin layer over its collaborators; what it guarantees
    about values is relative to what they guarantee. *)

(** Scalar arithmetic of the field of a space. *)
Class Scalars (F : Type) : Type := {
  fadd : F -> F -> F;
  fmul : F -> F -> F
}.

Section Contracts.
Context {Obj Dtype F : Type}.
Context `{!PyObject Obj, !TensorSpaceCapability Obj Dtype F,
          !TensorCapability Dtype F, !BaseClasses Obj Dtype F, !Scalars F}.

(** Python's data-model contract for [__eq__] and [__hash__], for the
    base class and for the objects held as [fspace] and [tspace]. *)
Record EqHashLaws : Prop := {
  TensorSpace_eq_refl : forall a, TensorSpace__eq__ a a = true;
  TensorSpace_hash_eq : forall a b,
    TensorSpace__eq__ a b = true -> TensorSpace__hash__ a = TensorSpace__hash__ b;
  obj_eq_refl : forall o : Obj, obj_eq o o = true;
  obj_eq_sym : forall o1 o2 : Obj, obj_eq o1 o2 = obj_eq o2 o1;
  obj_hash_eq : forall o1 o2 : Obj, obj_eq o1 o2 = true -> obj_hash o1 = obj_hash o2
}.

(** [a*x1 + b*x2], entry by entry. *)
Definition lincomb_data (a : F) (d1 : list F) (b : F) (d2 : list F) : list F :=
  zip_with (fun u v => fadd (fmul a u) (fmul b v)) d1 d2.

(** The contract of [tspace._lincomb]: it reads its two inputs and
    overwrites the output array with their linear combination. *)
Definition lincomb_contract (ts : Obj) : Prop :=
  forall (a : F) (t1 : loc) (b : F) (t2 tout : loc) (st : Store F) (d1 d2 : list F),
    st !! t1 = Some d1 -> st !! t2 = Some d2 ->
    ts_lincomb ts a t1 b t2 tout st =
      (Return tt, <[tout := lincomb_data a d1 b d2]> st).

(** The contract of [==] on storage handles: equal entry by entry. *)
Definition tensor_eq_contract : Prop :=
  forall (t1 t2 : loc) (st : Store F),
    tensor_eq t1 t2 st = true <->
    exists d : list F, st !! t1 = Some d /\ st !! t2 = Some d.
End Contracts.

(** ** A small concrete backend

    Instances of the interfaces above on which the definitions can be run:
    a few NumPy scalar types, integer scalars, and one array backend. *)

Inductive np_dtype : Type :=
| float32 | float64 | complex64 | complex128 | int64 | bool_.

#[global] Instance np_dtype_eq_dec : EqDecision np_dtype.
Proof. solve_decision. Defined.

#[global] Instance np_dtype_util : DtypeUtil np_dtype := {|
  is_real_floating_dtype d :=
    match d with float32 | float64 => true | _ => false end;
  is_complex_floating_dtype d :=
    match d with complex64 | complex128 => true | _ => false end;
  is_numeric_dtype d :=
    match d with bool_ => false | _ => true end
|}.

#[global] Instance np_dtype_repr : Repr np_dtype := fun d =>
  match d with
  | float32 => "dtype('float32')" | float64 => "dtype('float64')"
  | complex64 => "dtype('complex64')" | complex128 => "dtype('complex128')"
  | int64 => "dtype('int64')" | bool_ => "dtype('bool')"
  end.

#[global] Instance PyClass_repr : Repr PyClass := fun c =>
  match c with
  | NoneType => "<class 'NoneType'>"
  | TypeType => "<class 'type'>"
  | RealNumbers => "<class 'odl.set.sets.RealNumbers'>"
  | ComplexNumbers => "<class 'odl.set.sets.ComplexNumbers'>"
  | OtherClass name => "<class '" +:+ name +:+ "'>"
  end.

#[global] Instance PyVal_repr : Repr PyVal := fun v =>
  match v with
  | VNone => "None"
  | VClass c => repr c
  | VObject c => "<instance of " +:+ repr c +:+ ">"
  end.

(** [repr] of a string without quotes or escapes in it. *)
#[global] Instance simple_string_repr : Repr string := fun s => "'" +:+ s +:+ "'".

Inductive backend : Type := NumpyTensorSpace.

Definition registry : gmap string backend := {["numpy" := NumpyTensorSpace]}.

(** A space with no [field] attribute, [rn(3)] and [cn(3)]. *)
Definition plain_space : TemplateSpace := mkTemplateSpace ∅ "IntervalProd(0.0, 1.0)".

Definition real_space : TemplateSpace :=
  mkTemplateSpace {["field" := VObject RealNumbers]} "rn(3)".

Definition complex_space : TemplateSpace :=
  mkTemplateSpace {["field" := VObject ComplexNumbers]} "cn(3)".

(** A space whose [field] attribute is [None]. *)
Definition fieldless_space : TemplateSpace :=
  mkTemplateSpace {["field" := VNone]} "LinearSpace()".

(** Objects: an integer, a function space, and the array space [rn(n)]. *)
Inductive demo_obj : Type :=
| DInt (z : Z)
| DFunctionSpace (name : string)
| DRn (n : nat).

#[global] Instance demo_obj_eq_dec : EqDecision demo_obj.
Proof. solve_decision. Defined.

#[global] Instance demo_obj_repr : Repr demo_obj := fun o =>
  match o with
  | DInt z => if bool_decide (z = 0%Z) then "0" else "<int>"
  | DFunctionSpace name => "FunctionSpace(" +:+ name +:+ ")"
  | DRn n => "rn(" +:+ pretty n +:+ ")"
  end.

#[global] Instance demo_PyObject : PyObject demo_obj := {|
  isinstance_Set o := match o with DInt _ => false | _ => true end;
  isinstance_TensorSpace o := match o with DRn _ => true | _ => false end;
  obj_eq o1 o2 := bool_decide (o1 = o2);
  obj_hash o := match o with DInt z => z | DFunctionSpace _ => 1%Z | DRn n => Z.of_nat n end;
  obj_tensor _ := None
|}.

#[global] Instance Z_scalars : Scalars Z := {| fadd := Z.add; fmul := Z.mul |}.

(** A fresh location of a store. *)
Definition alloc (d : list Z) : Py Z loc := fun st =>
  let l := fresh (dom st) in (Return l, <[l := d]> st).

Definition binop (f : Z -> Z -> Z) (t1 t2 tout : loc) : Py Z unit := fun st =>
  match st !! t1, st !! t2 with
  | Some d1, Some d2 => (Return tt, <[tout := zip_with f d1 d2]> st)
  | _, _ => (Raise (ValueError "invalid handle"), st)
  end.

Definition reduce2 (f : list Z -> list Z -> Z) (t1 t2 : loc) : Py Z Z := fun st =>
  match st !! t1, st !! t2 with
  | Some d1, Some d2 => (Return (f d1 d2), st)
  | _, _ => (Raise (ValueError "invalid handle"), st)
  end.

Definition dot (d1 d2 : list Z) : Z := foldr Z.add 0%Z (zip_with Z.mul d1 d2).

Definition size_of (o : demo_obj) : nat :=
  match o with DRn n => n | _ => 0 end.

#[global] Instance demo_tspace : TensorSpaceCapability demo_obj np_dtype Z := {|
  ts_shape o := [Z.of_nat (size_of o)];
  ts_dtype _ := int64;
  ts_impl _ := "numpy";
  ts_is_weighted _ := Some false;
  ts_zero o := alloc (replicate (size_of o) 0%Z);
  ts_one o := alloc (replicate (size_of o) 1%Z);
  ts_lincomb _ a t1 b t2 tout := fun st =>
    match st !! t1, st !! t2 with
    | Some d1, Some d2 => (Return tt, <[tout := lincomb_data a d1 b d2]> st)
    | _, _ => (Raise (ValueError "invalid handle"), st)
    end;
  ts_dist _ := reduce2 (fun d1 d2 => dot (zip_with Z.sub d1 d2) (zip_with Z.sub d1 d2));
  ts_norm _ t := reduce2 dot t t;
  ts_inner _ := reduce2 dot;
  ts_multiply _ := binop Z.mul;
  ts_divide _ := binop Z.div
|}.

#[global] Instance demo_tensor : TensorCapability np_dtype Z := {|
  tensor_copy t := fun st =>
    match st !! t with
    | Some d => alloc d st
    | None => (Raise (ValueError "invalid handle"), st)
    end;
  tensor_astype t _ := fun st =>
    match st !! t with
    | Some d => alloc d st
    | None => (Raise (ValueError "invalid handle"), st)
    end;
  tensor_eq t1 t2 st :=
    match st !! t1, st !! t2 with
    | Some d1, Some d2 => bool_decide (d1 = d2)
    | _, _ => false
    end
|}.

#[global] Instance demo_space_eq_dec : EqDecision (DiscretizedSpace demo_obj np_dtype).
Proof. solve_decision. Defined.

(** The base classes, with one subclass, [DiscreteLp], that overrides
    [element] by wrapping the handle it is given. *)
#[global] Instance demo_base : BaseClasses demo_obj np_dtype Z := {|
  TensorSpace__eq__ a b :=
    bool_decide (cls a = cls b) && bool_decide (shape a = shape b) &&
    bool_decide (dtype a = dtype b);
  TensorSpace__hash__ a := foldr Z.add 0%Z (shape a);
  TensorSpace__contains__ sp other :=
    match other with
    | OElement e => bool_decide (space e = sp)
    | OObject _ => false
    end;
  TensorSpace_astype sp d :=
    if bool_decide (d = dtype sp) then Return sp
    else Raise (TypeError "unexpected keyword argument 'dtype'");
  hash_int z := z;
  hash_tuple l := foldr (fun x acc => (31 * acc + x)%Z) 7%Z l;
  element_override c :=
    if bool_decide (c = "DiscreteLp") then
      Some (fun self inp =>
              match inp with
              | Some (InpTensor t) => mret (mkElement self t)
              | _ => t ← ts_zero (tspace self); mret (mkElement self t)
              end)
    else None
|}.

(** An abstract space (class [DiscretizedSpace]) and a concrete one. *)
Definition abstract_space : DiscretizedSpace demo_obj np_dtype :=
  mkDiscretizedSpace 1 "DiscretizedSpace" [3%Z] int64 (DFunctionSpace "L2") (DRn 3).

Definition lp_space : DiscretizedSpace demo_obj np_dtype :=
  mkDiscretizedSpace 2 "DiscreteLp" [3%Z] int64 (DFunctionSpace "L2") (DRn 3).

(** A second object with the attributes of [abstract_space]. *)
Definition twin_space : DiscretizedSpace demo_obj np_dtype :=
  mkDiscretizedSpace 3 "DiscretizedSpace" [3%Z] int64 (DFunctionSpace "L2") (DRn 3).

(** A store with two arrays. *)
Definition demo_store : Store Z := {[ 1%positive := [1; 2; 3]%Z; 2%positive := [10; 20; 30]%Z ]}.

(** ** The [examples] generator *)

(** What the module asks of [fspace] beyond the type test: the pairs
    [(name, value)] its [examples] iterator yields, in order. *)
Class SetCapability (Obj : Type) : Type := {
  fs_examples : Obj -> list (string * Obj)
}.

(** The state of the generator object that [space.examples] returns: its
    body has not run yet, it is suspended at the [yield] with the rest of
    the loop ahead, or it is exhausted. *)
Inductive Generator (Obj : Type) : Type :=
| NotStarted
| Suspended (rest : list (string * Obj))
| Finished.

Arguments NotStarted {Obj}.
Arguments Suspended {Obj} rest.
Arguments Finished {Obj}.

Section Examples.
Context {Obj Dtype F : Type}.
Context `{!PyObject Obj, !SetCapability Obj, !TensorSpaceCapability Obj Dtype F,
          !TensorCapability Dtype F, !BaseClasses Obj Dtype F}.

Local Abbreviation Space := (DiscretizedSpace Obj Dtype).
Local Abbreviation Element := (DiscretizedSpaceElement Obj Dtype).

(** [self.examples]: creating the generator runs nothing. *)
Definition examples (self : Space) : Generator Obj := NotStarted.

(** [next(g)] for [g] a generator of [self.examples]:
    [for name, elem in self.fspace.examples: yield (name, self.element(elem))].
    [Return None] stands for [StopIteration]; a generator that raised is
    exhausted. *)
Definition examples_next (self : Space) (g : Generator Obj) (st : Store F)
    : result (option (string * Element)) * Generator Obj * Store F :=
  match
    match g with
    | NotStarted => fs_examples (fspace self)
    | Suspended rest => rest
    | Finished => []
    end
  with
  | [] => (Return None, Finished, st)
  | (name, elem) :: rest =>
      match element self (Some (InpObj elem)) st with
      | (Return e, st') => (Return (Some (name, e)), Suspended rest, st')
      | (Raise err, st') => (Raise err, Finished, st')
      end
  end.

(** [list(g)]: [next] is called until it stops or raises; [n] bounds the
    number of calls, and [acc] holds the pairs received so far, last
    first. *)
Fixpoint collect (n : nat) (self : Space) (g : Generator Obj) (st : Store F)
    (acc : list (string * Element))
    : option (result (list (string * Element)) * Store F) :=
  match n with
  | O => None
  | S n =>
      match examples_next self g st with
      | (Return None, _, st') => Some (Return (rev acc), st')
      | (Return (Some p), g', st') => collect n self g' st' (p :: acc)
      | (Raise err, _, st') => Some (Raise err, st')
      end
  end.

(** Discretizing a list of named values one after the other, threading
    the store, up to the first failure. *)
Fixpoint discretize_all (self : Space) (items : list (string * Obj)) (st : Store F)
    : result (list (string * Element)) * Store F :=
  match items with
  | [] => (Return [], st)
  | (name, elem) :: rest =>
      match element self (Some (InpObj elem)) st with
      | (Return e, st') =>
          match discretize_all self rest st' with
          | (Return l, st'') => (Return ((name, e) :: l), st'')
          | (Raise err, st'') => (Raise err, st'')
          end
      | (Raise err, st') => (Raise err, st')
      end
  end.

(** ** Further contracts of the collaborators *)

(** The base-class equality is symmetric and transitive, and so is [==]
    on the objects held as [fspace] and [tspace]. *)
Record EqOrderLaws : Prop := {
  TensorSpace_eq_sym : forall a b : Space,
    TensorSpace__eq__ a b = TensorSpace__eq__ b a;
  TensorSpace_eq_trans : forall a b c : Space,
    TensorSpace__eq__ a b = true -> TensorSpace__eq__ b c = true ->
    TensorSpace__eq__ a c = true;
  obj_eq_symm : forall o1 o2 : Obj, obj_eq o1 o2 = obj_eq o2 o1;
  obj_eq_trans : forall o1 o2 o3 : Obj,
    obj_eq o1 o2 = true -> obj_eq o2 o3 = true -> obj_eq o1 o3 = true
}.

(** Transitivity alone, of the base-class equality and of [==] on the
    objects held as [fspace] and [tspace]. *)
Record EqTransLaws : Prop := {
  base_eq_transitive : forall a b c : Space,
    TensorSpace__eq__ a b = true -> TensorSpace__eq__ b c = true ->
    TensorSpace__eq__ a c = true;
  obj_eq_transitive : forall o1 o2 o3 : Obj,
    obj_eq o1 o2 = true -> obj_eq o2 o3 = true -> obj_eq o1 o3 = true
}.

(** The base-class equality holds between spaces of one class with the
    same shape and dtype. *)
Definition TensorSpace_eq_structural : Prop :=
  forall a b : Space,
    cls a = cls b -> shape a = shape b -> dtype a = dtype b ->
    TensorSpace__eq__ a b = true.

(** [tensor.copy()] allocates: the new handle is not in use, and holds the
    entries of the original. *)
Definition tensor_copy_contract : Prop :=
  forall (t : loc) (st : Store F) (d : list F),
    st !! t = Some d ->
    exists l : loc, st !! l = None /\
                    tensor_copy t st = (Return l, <[l := d]> st).

(** The class of [self] overrides [element], and the override wraps a
    storage handle it is given. *)
Definition element_wraps (self : Space) : Prop :=
  exists f, element_override (cls self) = Some f /\
    forall (t : loc) (st : Store F),
      f self (Some (InpTensor t)) st = (Return (mkElement self t), st).

(** The elements of a space are members of it. *)
Definition contains_own_elements (self : Space) : Prop :=
  forall x : Element,
    space x = self -> TensorSpace__contains__ self (OElement x) = true.
End Examples.

(** The examples of the concrete function space. *)
#[global] Instance demo_set : SetCapability demo_obj := {|
  fs_examples o :=
    match o with
    | DFunctionSpace _ => [("Zero", DInt 0); ("One", DInt 1)]
    | _ => []
    end
|}.

(** Base classes whose [DiscreteLp] validates what it discretizes: its
    [element] wraps a handle and discretizes an integer, and rejects every
    other input. *)
Definition strict_base : BaseClasses demo_obj np_dtype Z := {|
  TensorSpace__eq__ := TensorSpace__eq__ (BaseClasses := demo_base);
  TensorSpace__hash__ := TensorSpace__hash__ (BaseClasses := demo_base);
  TensorSpace__contains__ := TensorSpace__contains__ (BaseClasses := demo_base);
  TensorSpace_astype := TensorSpace_astype (BaseClasses := demo_base);
  hash_int := hash_int (BaseClasses := demo_base);
  hash_tuple := hash_tuple (BaseClasses := demo_base);
  element_override c :=
    if bool_decide (c = "DiscreteLp") then
      Some (fun self inp =>
              match inp with
              | Some (InpTensor t) => mret (mkElement self t)
              | Some (InpObj (DInt z)) =>
                  t ← alloc (replicate (size_of (tspace self)) z);
                  mret (mkElement self t)
              | _ => raise (TypeError "cannot discretize")
              end)
    else None
|}.

(** A third object with the attributes of [abstract_space]. *)
Definition third_space : DiscretizedSpace demo_obj np_dtype :=
  mkDiscretizedSpace 5 "DiscretizedSpace" [3%Z] int64 (DFunctionSpace "L2") (DRn 3).

(** A space over a set without examples. *)
Definition empty_space : DiscretizedSpace demo_obj np_dtype :=
  mkDiscretizedSpace 4 "DiscretizedSpace" [3%Z] int64 (DRn 3) (DRn 3).

(** * Properties *)

(** ** Messages *)

Lemma append_cons (x : Ascii.ascii) (a b : string) :
  String x a +:+ b = String x (a +:+ b).
Proof. reflexivity. Qed.

Lemma append_assoc (a b c : string) : (a +:+ b) +:+ c = a +:+ (b +:+ c).
Proof.
  induction a as [|x a IH]; [reflexivity|].
  now rewrite !append_cons, IH.
Qed.

Lemma append_nil_r (a : string) : a +:+ "" = a.
Proof.
  induction a as [|x a IH]; [reflexivity|].
  now rewrite append_cons, IH.
Qed.

Lemma contains_refl (s : string) : contains s s.
Proof. exists "", "". now rewrite append_nil_r. Qed.

Lemma contains_app_l (a b s : string) : contains a s -> contains (a +:+ b) s.
Proof.
  intros (pre & post & ->). exists pre, (post +:+ b).
  now rewrite !append_assoc.
Qed.

Lemma contains_app_r (a b s : string) : contains b s -> contains (a +:+ b) s.
Proof.
  intros (pre & post & ->). exists (a +:+ pre), post.
  now rewrite !append_assoc.
Qed.

Create HintDb msg.
#[local] Hint Resolve contains_refl contains_app_l contains_app_r : msg.

(** ** The backend selector *)

Section SelectorFacts.
Context {Dtype TensorSpaceType : Type}.
Context `{!DtypeUtil Dtype, !Repr Dtype, !Repr PyVal, !Repr string}.
Implicit Types (reg : gmap string TensorSpaceType) (space : TemplateSpace)
  (impl : string) (dt : Dtype).

(** [type(...)] never yields [None]: the test [field_type is None] of
    [tspace_type] is false on every input. *)
Lemma type_is_not_None (v : PyVal) : is_None (type v) = false.
Proof. now destruct v. Qed.

(** The class of the [field] of a space without a field is [NoneType]. *)
Lemma field_type_of_no_field space :
  getattr space "field" VNone = VNone ->
  type (getattr space "field" VNone) = VClass NoneType.
Proof. now intros ->. Qed.

(** What the selector does once the field check is over. *)
Lemma tspace_type_without_dtype reg space impl :
  tspace_type reg space impl None =
  match reg !! impl with
  | Some T => Return T
  | None => Raise (NotImplementedError (no_tspace_msg space impl))
  end.
Proof.
  unfold tspace_type, tensor_space_impl. cbn.
  now destruct (reg !! impl).
Qed.


(** A complex field is rejected for a real floating dtype, and a real
    field for a complex floating dtype. *)
Lemma tspace_type_real_dtype_complex_field reg space impl dt :
  is_real_floating_dtype dt = true ->
  getattr space "field" VNone = VObject ComplexNumbers ->
  tspace_type reg space impl (Some dt) =
    Raise (TypeError (real_msg dt (VClass ComplexNumbers))).
Proof. intros Hr Hf. unfold tspace_type. now rewrite Hr, Hf. Qed.

Lemma tspace_type_complex_dtype_real_field reg space impl dt :
  is_real_floating_dtype dt = false ->
  is_complex_floating_dtype dt = true ->
  getattr space "field" VNone = VObject RealNumbers ->
  tspace_type reg space impl (Some dt) =
    Raise (TypeError (complex_msg dt (VClass RealNumbers))).
Proof. intros Hr Hc Hf. unfold tspace_type. now rewrite Hr, Hc, Hf. Qed.

(** C1.  The claim: a template space whose field is [None] is rejected
    with a field-incompatibility [TypeError] for a real floating and for
    a complex floating dtype.  The code does not do so: [field_type] is
    [type(getattr(space, 'field', None))], which for a missing or [None]
    field is the class [NoneType]; it is neither [None] nor one of the two
    number classes, so no branch raises, and the call proceeds to the
    registry lookup exactly as it does without a dtype. *)
Theorem tspace_type_None_field_not_rejected reg space impl dt :
  getattr space "field" VNone = VNone ->
  is_real_floating_dtype dt = true \/ is_complex_floating_dtype dt = true ->
  tspace_type reg space impl (Some dt) = tspace_type reg space impl None /\
  is_TypeError (tspace_type reg space impl (Some dt)) = false.
Proof.
  intros Hf Hd.
  assert (E : tspace_type reg space impl (Some dt) = tspace_type reg space impl None).
  { unfold tspace_type. rewrite Hf. cbn.
    destruct (is_real_floating_dtype dt); [reflexivity|].
    destruct Hd as [Hd|Hd]; [discriminate|]. now rewrite Hd. }
  split; [exact E|].
  rewrite E, tspace_type_without_dtype. now destruct (reg !! impl).
Qed.

(** C2.  Without a dtype no field check is made: the call never raises a
    field-incompatibility [TypeError], and its outcome is that of the
    registry lookup of the backend name, whatever the template space:
    the registered type, or a not-implemented failure. *)
Theorem tspace_type_no_dtype reg space impl :
  is_TypeError (tspace_type reg space impl None) = false /\
  outcome (tspace_type reg space impl None) =
    match reg !! impl with
    | Some T => inl T
    | None => inr KNotImplementedError
    end /\
  forall space' : TemplateSpace,
    outcome (tspace_type reg space' impl None) =
    outcome (tspace_type reg space impl None).
Proof.
  repeat split; intros; rewrite !tspace_type_without_dtype;
    now destruct (reg !! impl).
Qed.

End SelectorFacts.

(** ** Construction of a discretized space *)

Section ConstructionFacts.
Context {Obj Dtype F : Type}.
Context `{!PyObject Obj, !Repr Obj, !TensorSpaceCapability Obj Dtype F,
          !TensorCapability Dtype F, !BaseClasses Obj Dtype F}.
Implicit Types (self : gmap string (Attr Obj Dtype)) (fspace tspace : Obj).

(** The dictionary a successful [__init__] leaves behind. *)
Lemma DiscretizedSpace__init__ok self fspace tspace :
  isinstance_Set fspace = true ->
  isinstance_TensorSpace tspace = true ->
  DiscretizedSpace__init__ self fspace tspace =
    (Return tt,
     <["_DiscretizedSpace__tspace" := AObj tspace]>
       (<["_DiscretizedSpace__fspace" := AObj fspace]>
          (<["_TensorSpace__dtype" := ADtype (ts_dtype tspace)]>
             (<["_TensorSpace__shape" := AShape (ts_shape tspace)]> self)))).
Proof.
  intros Hf Ht. unfold DiscretizedSpace__init__, TensorSpace__init__.
  now rewrite Hf, Ht.
Qed.

(** C4.  For [fspace] a [Set] and [tspace] a [TensorSpace], the
    construction succeeds; the space it yields has the shape and the
    dtype of [tspace] (and holds the two arguments). *)
Theorem DiscretizedSpace_construction (i : positive) (c : string) (f t : Obj) :
  isinstance_Set f = true ->
  isinstance_TensorSpace t = true ->
  exists sp : DiscretizedSpace Obj Dtype,
    new_DiscretizedSpace i c f t = Return sp /\
    shape sp = ts_shape t /\
    dtype sp = ts_dtype t /\
    fspace sp = f /\
    tspace sp = t.
Proof.
  intros Hf Ht.
  exists (mkDiscretizedSpace i c (ts_shape t) (ts_dtype t) f t).
  split; [|now repeat split].
  unfold new_DiscretizedSpace.
  rewrite DiscretizedSpace__init__ok by assumption.
  unfold get_shape, get_dtype, get_fspace, get_tspace.
  now simplify_map_eq.
Qed.

(** C5.  When [fspace] is not a [Set], or [tspace] is not a
    [TensorSpace], [__init__] raises a [TypeError] and leaves the
    dictionary of the instance as it found it, so the constructor call
    raises the same error and yields no space.  The message names the
    argument that failed the check ([fspace] first) and contains its
    [repr]. *)
Theorem DiscretizedSpace_rejects_arguments self (f t : Obj) :
  isinstance_Set f = false \/ isinstance_TensorSpace t = false ->
  exists msg : string,
    DiscretizedSpace__init__ self f t = (Raise (TypeError msg), self) /\
    (forall (i : positive) (c : string),
       new_DiscretizedSpace i c f t = Raise (TypeError msg)) /\
    (if isinstance_Set f
     then msg = tspace_msg t /\
          contains msg "`tspace`" /\ contains msg (repr t)
     else msg = fspace_msg f /\
          contains msg "`fspace`" /\ contains msg (repr f)).
Proof.
  intros Hbad.
  unfold new_DiscretizedSpace, DiscretizedSpace__init__.
  destruct (isinstance_Set f) eqn:Hf; cbn.
  - destruct Hbad as [Hbad|Hbad]; [discriminate|]. rewrite Hbad. cbn.
    exists (tspace_msg t). repeat split.
    + now exists "", (" " +:+ repr t +:+ " not a `TensorSpace` instance").
    + unfold tspace_msg. auto with msg.
  - exists (fspace_msg f). repeat split.
    + now exists "", (" must be a `Set` instance, got " +:+ repr f).
    + unfold fspace_msg. auto with msg.
Qed.
End ConstructionFacts.

(** ** Spaces and elements *)

Section SpaceFacts.
Context {Obj Dtype F : Type}.
Context `{!PyObject Obj, !Repr Obj, !TensorSpaceCapability Obj Dtype F,
          !TensorCapability Dtype F, !BaseClasses Obj Dtype F, !Scalars F}.
Implicit Types (self a b : DiscretizedSpace Obj Dtype)
  (x out : DiscretizedSpaceElement Obj Dtype) (st : Store F).

(** A space is identical to itself. *)
Lemma is_refl a : is_ a a = true.
Proof. unfold is_. now apply bool_decide_eq_true. Qed.

(** On two distinct objects, [==] is the conjunction the code computes. *)
Lemma DiscretizedSpace__eq__distinct a b :
  is_ b a = false ->
  DiscretizedSpace__eq__ a (Some b) =
    TensorSpace__eq__ a b && obj_eq (fspace b) (fspace a) &&
    obj_eq (tspace b) (tspace a).
Proof. intros H. cbn. now rewrite H. Qed.

(** The hash is a function of the triple (base hash, [fspace], [tspace]). *)
Lemma DiscretizedSpace__hash__triple a b :
  TensorSpace__hash__ a = TensorSpace__hash__ b ->
  obj_hash (fspace a) = obj_hash (fspace b) ->
  obj_hash (tspace a) = obj_hash (tspace b) ->
  DiscretizedSpace__hash__ a = DiscretizedSpace__hash__ b.
Proof. unfold DiscretizedSpace__hash__. now intros -> -> ->. Qed.

(** C6.  Equality and hash of discretized spaces, for collaborators that
    keep Python's contract for [__eq__] and [__hash__]: [a == b] holds iff
    the base-space equality holds and the [fspace] and the [tspace]
    values are equal (in the operand order of the claim, and in that of
    the code); [a == a] is [True]; [a == None] is [False]; and equal
    spaces have equal hashes. *)
Theorem DiscretizedSpace_eq_hash a b :
  EqHashLaws ->
  same_object a b ->
  (DiscretizedSpace__eq__ a (Some b) = true <->
     TensorSpace__eq__ a b = true /\
     obj_eq (fspace a) (fspace b) = true /\
     obj_eq (tspace a) (tspace b) = true) /\
  (DiscretizedSpace__eq__ a (Some b) = true <->
     TensorSpace__eq__ a b = true /\
     obj_eq (fspace b) (fspace a) = true /\
     obj_eq (tspace b) (tspace a) = true) /\
  DiscretizedSpace__eq__ a (Some a) = true /\
  DiscretizedSpace__eq__ a None = false /\
  (DiscretizedSpace__eq__ a (Some b) = true ->
     DiscretizedSpace__hash__ a = DiscretizedSpace__hash__ b).
Proof.
  intros L Hsame.
  assert (Hcode : DiscretizedSpace__eq__ a (Some b) = true <->
     TensorSpace__eq__ a b = true /\
     obj_eq (fspace b) (fspace a) = true /\
     obj_eq (tspace b) (tspace a) = true).
  { destruct (is_ b a) eqn:Hid.
    - unfold is_ in Hid. apply bool_decide_eq_true in Hid.
      symmetry in Hid. apply Hsame in Hid. subst b.
      cbn. rewrite is_refl.
      split; [intros _|reflexivity].
      now rewrite (TensorSpace_eq_refl L), !(obj_eq_refl L).
    - rewrite DiscretizedSpace__eq__distinct by assumption.
      rewrite !andb_true_iff. tauto. }
  split; [|split; [exact Hcode|split; [|split]]].
  - rewrite Hcode, (obj_eq_sym L (fspace b)), (obj_eq_sym L (tspace b)).
    reflexivity.
  - cbn. now rewrite is_refl.
  - reflexivity.
  - intros Heq. apply Hcode in Heq. destruct Heq as (Hb & Hf & Ht).
    apply DiscretizedSpace__hash__triple.
    + now apply (TensorSpace_hash_eq L).
    + symmetry. now apply (obj_hash_eq L).
    + symmetry. now apply (obj_hash_eq L).
Qed.

(** [zero] and [one] map the outcome of the [tspace] factory through the
    element constructor. *)
Lemma zero_unfold self st :
  zero self st =
  match ts_zero (tspace self) st with
  | (Return t, st') => (Return (mkElement self t), st')
  | (Raise e, st') => (Raise e, st')
  end.
Proof. reflexivity. Qed.

Lemma one_unfold self st :
  one self st =
  match ts_one (tspace self) st with
  | (Return t, st') => (Return (mkElement self t), st')
  | (Raise e, st') => (Raise e, st')
  end.
Proof. reflexivity. Qed.

(** C7.  [zero()] and [one()] wrap what [tspace.zero()] and
    [tspace.one()] return: the element holds that very handle and the
    space itself, in the store the factory left; nothing else is checked,
    so they fail only when the factory fails, with its error. *)
Theorem zero_one_wrap self st :
  (forall (t : loc) st', ts_zero (tspace self) st = (Return t, st') ->
     exists x, zero self st = (Return x, st') /\
               tensor x = t /\ space x = self /\ is_ (space x) self = true) /\
  (forall e st', ts_zero (tspace self) st = (Raise e, st') ->
     zero self st = (Raise e, st')) /\
  (forall (t : loc) st', ts_one (tspace self) st = (Return t, st') ->
     exists x, one self st = (Return x, st') /\
               tensor x = t /\ space x = self /\ is_ (space x) self = true) /\
  (forall e st', ts_one (tspace self) st = (Raise e, st') ->
     one self st = (Raise e, st')).
Proof.
  repeat split.
  - intros t st' H. exists (mkElement self t).
    rewrite zero_unfold, H. repeat split. apply is_refl.
  - intros e st' H. now rewrite zero_unfold, H.
  - intros t st' H. exists (mkElement self t).
    rewrite one_unfold, H. repeat split. apply is_refl.
  - intros e st' H. now rewrite one_unfold, H.
Qed.

(** C8.  Each raw primitive passes the storage handles of its element
    arguments, and the scalars, to the primitive of [tspace] and has its
    outcome and its effect on the store.  Hence, for a [tspace] whose
    [_lincomb] meets its contract, [_lincomb(a, x1, b, x2, out)] leaves
    [a*x1 + b*x2] in the storage of [out] (computed from the entries
    [x1] and [x2] had before the call, also when [out] is one of them)
    and changes no other array. *)
Theorem raw_primitives_delegate self (a b : F) x x1 x2 out st :
  _lincomb self a x1 b x2 out st =
    ts_lincomb (tspace self) a (tensor x1) b (tensor x2) (tensor out) st /\
  _dist self x1 x2 st = ts_dist (tspace self) (tensor x1) (tensor x2) st /\
  _norm self x st = ts_norm (tspace self) (tensor x) st /\
  _inner self x1 x2 st = ts_inner (tspace self) (tensor x1) (tensor x2) st /\
  _multiply self x1 x2 out st =
    ts_multiply (tspace self) (tensor x1) (tensor x2) (tensor out) st /\
  _divide self x1 x2 out st =
    ts_divide (tspace self) (tensor x1) (tensor x2) (tensor out) st /\
  (lincomb_contract (tspace self) ->
   forall d1 d2 : list F,
     st !! tensor x1 = Some d1 -> st !! tensor x2 = Some d2 ->
     exists st',
       _lincomb self a x1 b x2 out st = (Return tt, st') /\
       st' !! tensor out = Some (lincomb_data a d1 b d2) /\
       forall l : loc, l <> tensor out -> st' !! l = st !! l).
Proof.
  repeat split.
  intros Hc d1 d2 H1 H2.
  exists (<[tensor out := lincomb_data a d1 b d2]> st).
  unfold _lincomb. rewrite (Hc _ _ _ _ _ _ _ _ H1 H2).
  repeat split.
  - apply lookup_insert_eq.
  - intros l Hl. now apply lookup_insert_ne.
Qed.

(** On an element operand, [==] returns a truth value. *)
Lemma DiscretizedSpaceElement__eq__element x x2 st :
  DiscretizedSpaceElement__eq__ x (OElement x2) st =
    Return (TensorSpace__contains__ (space x) (OElement x2) &&
            tensor_eq (tensor x) (tensor x2) st).
Proof.
  unfold DiscretizedSpaceElement__eq__.
  now destruct (TensorSpace__contains__ _ _).
Qed.

(** C9.  [self == other] holds iff [other] is a member of [self.space]
    and the storage handle of [self] compares equal to that of [other];
    for handles whose [==] compares entry by entry, iff [other] is a
    member and the two arrays have the same entries. *)
Theorem DiscretizedSpaceElement_eq x (other : Operand Obj Dtype) st :
  (DiscretizedSpaceElement__eq__ x other st = Return true <->
     TensorSpace__contains__ (space x) other = true /\
     exists t : loc, operand_tensor other = Return t /\
                     tensor_eq (tensor x) t st = true) /\
  (tensor_eq_contract ->
   DiscretizedSpaceElement__eq__ x other st = Return true <->
     TensorSpace__contains__ (space x) other = true /\
     exists (t : loc) (d : list F),
       operand_tensor other = Return t /\
       st !! tensor x = Some d /\ st !! t = Some d).
Proof.
  assert (H1 : DiscretizedSpaceElement__eq__ x other st = Return true <->
     TensorSpace__contains__ (space x) other = true /\
     exists t : loc, operand_tensor other = Return t /\
                     tensor_eq (tensor x) t st = true).
  { unfold DiscretizedSpaceElement__eq__.
    destruct (TensorSpace__contains__ (space x) other).
    - destruct (operand_tensor other) as [t|e]; cbn.
      + split.
        * intros [= E]. split; [reflexivity|]. now exists t.
        * intros (_ & t' & [= <-] & E). now rewrite E.
      + split; [discriminate|]. now intros (_ & t' & [=] & _).
    - split; [discriminate|]. now intros [[=] _]. }
  split; [exact H1|].
  intros Hc. rewrite H1. split.
  - intros (Hm & t & Ht & E). split; [exact Hm|].
    apply Hc in E. destruct E as (d & Hx & Hd). now exists t, d.
  - intros (Hm & t & d & Ht & Hx & Hd). split; [exact Hm|].
    exists t. split; [exact Ht|]. apply Hc. now exists d.
Qed.

(** C10 (amended).  On a space whose class does not override [element]:
    [zero()] and [one()] return an element whenever the factory of
    [tspace] returns a handle, since they do not go through [element];
    [copy()] never returns an element, and once [tensor.copy()] has
    returned it raises the [NotImplementedError] of the abstract method.
    [astype(dtype)] first asks the space for its retargeted counterpart:
    when that call raises, [astype] raises its error, with the store
    untouched and [element] not reached; when it returns a space whose
    class does not override [element] either, [astype] never returns an
    element and raises the [NotImplementedError] once
    [tensor.astype(dtype)] has returned. *)
Theorem abstract_element self :
  element_override (cls self) = None ->
  (forall st (t : loc) st', ts_zero (tspace self) st = (Return t, st') ->
     zero self st = (Return (mkElement self t), st')) /\
  (forall st (t : loc) st', ts_one (tspace self) st = (Return t, st') ->
     one self st = (Return (mkElement self t), st')) /\
  (forall x st, space x = self ->
     is_Return (copy x st).1 = false /\
     forall (t : loc) st', tensor_copy (tensor x) st = (Return t, st') ->
       copy x st = (Raise (NotImplementedError "abstract method"), st')) /\
  (forall x (dt : Dtype) st sp, space x = self ->
     TensorSpace_astype self dt = Return sp ->
     element_override (cls sp) = None ->
     is_Return (astype x dt st).1 = false /\
     forall (t : loc) st', tensor_astype (tensor x) dt st = (Return t, st') ->
       astype x dt st = (Raise (NotImplementedError "abstract method"), st')) /\
  (forall x (dt : Dtype) st e, space x = self ->
     TensorSpace_astype self dt = Raise e ->
     astype x dt st = (Raise e, st)).
Proof.
  intros Habs. split; [|split; [|split; [|split]]].
  - intros st t st' H. now rewrite zero_unfold, H.
  - intros st t st' H. now rewrite one_unfold, H.
  - intros x st <-. unfold copy, element, mbind, Py_bind. rewrite Habs.
    split.
    + now destruct (tensor_copy (tensor x) st) as [[t|e] st'].
    + intros t st' H. now rewrite H.
  - intros x dt st sp <- Hsp Hov. unfold astype, element, mbind, Py_bind.
    rewrite Hsp, Hov. split.
    + now destruct (tensor_astype (tensor x) dt st) as [[t|e] st'].
    + intros t st' H. now rewrite H.
  - intros x dt st e <- He. unfold astype. now rewrite He.
Qed.
End SpaceFacts.

(** ** The properties on the concrete backend *)

Lemma demo_laws : @EqHashLaws demo_obj np_dtype Z _ _.
Proof.
  split.
  - intros a. cbn. now rewrite !bool_decide_eq_true_2.
  - intros a b H. cbn in *.
    apply andb_true_iff in H as [H _]. apply andb_true_iff in H as [_ H].
    apply bool_decide_eq_true in H. now rewrite H.
  - intros o. cbn. now apply bool_decide_eq_true.
  - intros o1 o2. cbn. apply bool_decide_ext. split; congruence.
  - intros o1 o2 H. cbn in H. apply bool_decide_eq_true in H. now subst.
Qed.

Lemma demo_lincomb_contract (ts : demo_obj) : lincomb_contract ts.
Proof. intros a t1 b t2 tout st d1 d2 H1 H2. cbn. now rewrite H1, H2. Qed.

Lemma demo_tensor_eq_contract : @tensor_eq_contract np_dtype Z _.
Proof.
  intros t1 t2 st. cbn.
  destruct (st !! t1) as [d1|], (st !! t2) as [d2|].
  - rewrite bool_decide_eq_true. split.
    + intros ->. now exists d2.
    + intros (d & [= ->] & [= ->]). reflexivity.
  - split; [discriminate|]. now intros (d & _ & [=]).
  - split; [discriminate|]. now intros (d & [=] & _).
  - split; [discriminate|]. now intros (d & [=] & _).
Qed.

(** The selector on the concrete spaces: a missing and a [None] field pass
    for floating dtypes; mismatched number fields do not. *)
Example tspace_type_plain_float64 :
  tspace_type registry plain_space "numpy" (Some float64) = Return NumpyTensorSpace.
Proof. reflexivity. Qed.

Example tspace_type_fieldless_complex128 :
  tspace_type registry fieldless_space "numpy" (Some complex128) =
    Return NumpyTensorSpace.
Proof. reflexivity. Qed.

Example tspace_type_real_complex128 :
  outcome (tspace_type registry real_space "numpy" (Some complex128)) =
    inr KTypeError.
Proof. reflexivity. Qed.

Example tspace_type_complex_float32 :
  outcome (tspace_type registry complex_space "numpy" (Some float32)) =
    inr KTypeError.
Proof. reflexivity. Qed.

Example tspace_type_complex_int64 :
  outcome (tspace_type registry complex_space "numpy" (Some int64)) =
    inr KTypeError.
Proof. reflexivity. Qed.

Example tspace_type_real_float64 :
  tspace_type registry real_space "numpy" (Some float64) = Return NumpyTensorSpace.
Proof. reflexivity. Qed.

(** The call [tspace_type(space, 'numpy', 'float64')] on a space whose
    field is [None] returns the registered type. *)
Lemma tspace_type_None_field_not_rejected_witness :
  tspace_type registry fieldless_space "numpy" (Some float64) =
    tspace_type registry fieldless_space "numpy" None /\
  is_TypeError (tspace_type registry fieldless_space "numpy" (Some float64)) = false.
Proof.
  apply (tspace_type_None_field_not_rejected registry fieldless_space "numpy" float64).
  - reflexivity.
  - left. reflexivity.
Defined.


Lemma DiscretizedSpace_construction_witness :
  exists sp : DiscretizedSpace demo_obj np_dtype,
    new_DiscretizedSpace 5 "DiscretizedSpace" (DFunctionSpace "L2") (DRn 3) = Return sp /\
    shape sp = [3%Z] /\ dtype sp = int64 /\
    fspace sp = DFunctionSpace "L2" /\ tspace sp = DRn 3.
Proof.
  exact (DiscretizedSpace_construction (Dtype := np_dtype) (F := Z)
           5 "DiscretizedSpace" (DFunctionSpace "L2") (DRn 3) eq_refl eq_refl).
Defined.

Lemma DiscretizedSpace_rejects_arguments_witness :
  exists msg : string,
    DiscretizedSpace__init__ (F := Z) ∅ (DInt 0) (DRn 3) = (Raise (TypeError msg), ∅) /\
    (forall (i : positive) (c : string),
       new_DiscretizedSpace (F := Z) i c (DInt 0) (DRn 3) = Raise (TypeError msg)) /\
    msg = fspace_msg (DInt 0) /\
    contains msg "`fspace`" /\ contains msg "0".
Proof.
  exact (DiscretizedSpace_rejects_arguments (Dtype := np_dtype) (F := Z)
           ∅ (DInt 0) (DRn 3) (or_introl eq_refl)).
Defined.

Lemma DiscretizedSpace_eq_hash_witness :
  DiscretizedSpace__eq__ abstract_space (Some twin_space) = true /\
  DiscretizedSpace__hash__ abstract_space = DiscretizedSpace__hash__ twin_space.
Proof.
  destruct (DiscretizedSpace_eq_hash abstract_space twin_space demo_laws)
    as (_ & _ & _ & _ & Hhash).
  - intros [=].
  - split; [reflexivity|]. apply Hhash. reflexivity.
Defined.

Lemma zero_one_wrap_witness :
  exists x : DiscretizedSpaceElement demo_obj np_dtype,
    zero abstract_space demo_store =
      (Return x, <[3%positive := [0; 0; 0]%Z]> demo_store) /\
    tensor x = 3%positive /\ space x = abstract_space /\
    is_ (space x) abstract_space = true.
Proof.
  apply (proj1 (zero_one_wrap abstract_space demo_store)).
  reflexivity.
Defined.

Lemma raw_primitives_delegate_witness :
  exists st' : Store Z,
    _lincomb abstract_space 2%Z (mkElement abstract_space 1) 3%Z
      (mkElement abstract_space 2) (mkElement abstract_space 1) demo_store =
      (Return tt, st') /\
    st' !! 1%positive = Some [32; 64; 96]%Z /\
    forall l : loc, l <> 1%positive -> st' !! l = demo_store !! l.
Proof.
  pose proof (raw_primitives_delegate abstract_space 2%Z 3%Z
                (mkElement abstract_space 1) (mkElement abstract_space 1)
                (mkElement abstract_space 2) (mkElement abstract_space 1)
                demo_store) as (_ & _ & _ & _ & _ & _ & H).
  apply (H (demo_lincomb_contract _) [1; 2; 3]%Z [10; 20; 30]%Z); reflexivity.
Defined.

Lemma DiscretizedSpaceElement_eq_witness :
  DiscretizedSpaceElement__eq__ (mkElement abstract_space 1)
    (OElement (mkElement abstract_space 1)) demo_store = Return true.
Proof.
  apply (proj2 (DiscretizedSpaceElement_eq (mkElement abstract_space 1)
                  (OElement (mkElement abstract_space 1)) demo_store)
           demo_tensor_eq_contract).
  split; [reflexivity|].
  exists 1%positive, [1; 2; 3]%Z. repeat split; reflexivity.
Defined.

Lemma abstract_element_witness :
  zero abstract_space demo_store =
    (Return (mkElement abstract_space 3), <[3%positive := [0; 0; 0]%Z]> demo_store) /\
  copy (mkElement abstract_space 1) demo_store =
    (Raise (NotImplementedError "abstract method"),
     <[3%positive := [1; 2; 3]%Z]> demo_store) /\
  astype (mkElement abstract_space 1) int64 demo_store =
    (Raise (NotImplementedError "abstract method"),
     <[3%positive := [1; 2; 3]%Z]> demo_store) /\
  astype (mkElement abstract_space 1) float64 demo_store =
    (Raise (TypeError "unexpected keyword argument 'dtype'"), demo_store).
Proof.
  assert (Habs : element_override (F := Z) (cls abstract_space) = None)
    by reflexivity.
  destruct (abstract_element abstract_space Habs) as (Hz & _ & Hc & Ha & Hr).
  split; [|split; [|split]].
  - apply Hz. reflexivity.
  - apply (proj2 (Hc (mkElement abstract_space 1) demo_store eq_refl)
             3%positive).
    reflexivity.
  - apply (proj2 (Ha (mkElement abstract_space 1) int64 demo_store
                    abstract_space eq_refl eq_refl Habs) 3%positive).
    reflexivity.
  - apply (Hr (mkElement abstract_space 1) float64 demo_store); reflexivity.
Defined.

(** C10, as first stated, fails for [astype]: on the abstract space, with
    a base class that cannot retarget it to another dtype, the call
    [astype('float64')] raises the [TypeError] of the retargeting and not
    the [NotImplementedError] of [element], which is never reached. *)
Lemma astype_abstract_counterexample :
  element_override (F := Z) (cls abstract_space) = None /\
  astype (mkElement abstract_space 1) float64 demo_store =
    (Raise (TypeError "unexpected keyword argument 'dtype'"), demo_store) /\
  is_NotImplementedError
    (astype (mkElement abstract_space 1) float64 demo_store).1 = false.
Proof. repeat split. Qed.

(** A subclass that overrides [element] can copy its elements. *)
Example copy_on_DiscreteLp :
  copy (mkElement lp_space 1) demo_store =
    (Return (mkElement lp_space 3), <[3%positive := [1; 2; 3]%Z]> demo_store).
Proof. reflexivity. Qed.

(** Two spaces of different classes are not equal. *)
Example abstract_space_ne_lp_space :
  DiscretizedSpace__eq__ abstract_space (Some lp_space) = false.
Proof. reflexivity. Qed.

Example is_weighted_abstract_space : is_weighted abstract_space = false.
Proof. reflexivity. Qed.

Example impl_abstract_space : impl abstract_space = "numpy".
Proof. reflexivity. Qed.

(** * Further properties *)

(** ** The field check of the selector *)

Section SelectorMore.
Context {Dtype TensorSpaceType : Type}.
Context `{!DtypeUtil Dtype, !Repr Dtype, !Repr PyVal, !Repr string}.
Implicit Types (reg : gmap string TensorSpaceType) (space : TemplateSpace)
  (impl : string) (dt : Dtype) (T : TensorSpaceType).

(** The class of a value is a number class only for an instance of it. *)
Lemma type_is_class (v : PyVal) (c : PyClass) :
  c <> TypeType -> c <> NoneType ->
  py_eq (type v) (VClass c) = true <-> v = VObject c.
Proof.
  intros H1 H2. unfold py_eq. rewrite bool_decide_eq_true.
  destruct v as [|c'|c']; cbn; split; intros E; try congruence.
Qed.

(** X1.  [tspace_type] raises the field-incompatibility [TypeError] in
    exactly three cases: a real floating dtype with a [ComplexNumbers]
    field, a complex floating dtype with a [RealNumbers] field, and a
    numeric dtype of neither kind with a [ComplexNumbers] field.  Without
    a dtype, with a dtype of no numeric kind, or with any other field
    (none, [None], another class) it never does. *)
Theorem tspace_type_TypeError_iff reg space impl (dtype : option Dtype) :
  is_TypeError (tspace_type reg space impl dtype) = true <->
  exists dt, dtype = Some dt /\
    let field := getattr space "field" VNone in
    (is_real_floating_dtype dt = true /\ field = VObject ComplexNumbers) \/
    (is_real_floating_dtype dt = false /\ is_complex_floating_dtype dt = true /\
     field = VObject RealNumbers) \/
    (is_real_floating_dtype dt = false /\ is_complex_floating_dtype dt = false /\
     is_numeric_dtype dt = true /\ field = VObject ComplexNumbers).
Proof.
  assert (HC := type_is_class (getattr space "field" VNone) ComplexNumbers
                  ltac:(discriminate) ltac:(discriminate)).
  assert (HR := type_is_class (getattr space "field" VNone) RealNumbers
                  ltac:(discriminate) ltac:(discriminate)).
  destruct dtype as [dt|].
  2:{ rewrite tspace_type_without_dtype.
      split; [now destruct (reg !! impl)|]. now intros (dt & [=] & _). }
  unfold tspace_type. rewrite type_is_not_None. cbn [orb].
  destruct (is_real_floating_dtype dt) eqn:Er;
    [|destruct (is_complex_floating_dtype dt) eqn:Ec;
      [|destruct (is_numeric_dtype dt) eqn:En]].
  - destruct (py_eq _ (VClass ComplexNumbers)) eqn:E; cbn.
    + split; [intros _|reflexivity]. exists dt. split; [reflexivity|].
      left. split; [exact Er|]. now apply HC.
    + split.
      * unfold tensor_space_impl. destruct (reg !! impl); discriminate.
      * intros (dt' & [= <-] & [[_ Hf]|[[Hf _]|[Hf _]]]); try congruence.
        apply HC in Hf; congruence.
  - destruct (py_eq _ (VClass RealNumbers)) eqn:E; cbn.
    + split; [intros _|reflexivity]. exists dt. split; [reflexivity|].
      right; left. split; [exact Er|]. split; [exact Ec|]. now apply HR.
    + split.
      * unfold tensor_space_impl. destruct (reg !! impl); discriminate.
      * intros (dt' & [= <-] & [[Hf _]|[(_ & _ & Hf)|(_ & Hf & _)]]);
          try congruence.
        apply HR in Hf; congruence.
  - destruct (py_eq _ (VClass ComplexNumbers)) eqn:E; cbn.
    + split; [intros _|reflexivity]. exists dt. split; [reflexivity|].
      right; right. split; [exact Er|]. split; [exact Ec|].
      split; [exact En|]. now apply HC.
    + split.
      * unfold tensor_space_impl. destruct (reg !! impl); discriminate.
      * intros (dt' & [= <-] & [[Hf _]|[(_ & Hf & _)|(_ & _ & _ & Hf)]]);
          try congruence.
        apply HC in Hf; congruence.
  - cbn. split.
    + unfold tensor_space_impl. destruct (reg !! impl); discriminate.
    + intros (dt' & [= <-] & [[Hf _]|[(_ & Hf & _)|(_ & _ & Hf & _)]]);
        congruence.
Qed.

(** The field check looks at the space and the dtype only: it fails for
    every registry and backend name with one message, or for none. *)
Lemma tspace_type_field_check space (dtype : option Dtype) :
  (exists msg, forall reg impl,
     tspace_type reg space impl dtype = Raise (TypeError msg)) \/
  (forall reg impl,
     tspace_type reg space impl dtype = tspace_type reg space impl None).
Proof.
  destruct dtype as [dt|]; [|now right].
  unfold tspace_type.
  destruct (is_real_floating_dtype dt);
    [|destruct (is_complex_floating_dtype dt); [|destruct (is_numeric_dtype dt)]];
    repeat match goal with |- context [if ?b then _ else _] => destruct b end;
    cbn; eauto.
Qed.

(** X2.  The field check comes first and does not depend on the backend:
    when a call raises the field-incompatibility [TypeError], the call
    with any other registry and backend name, registered or not, raises
    it with the same message. *)
Theorem tspace_type_field_check_first reg reg' space impl impl'
    (dtype : option Dtype) (msg : string) :
  tspace_type reg space impl dtype = Raise (TypeError msg) ->
  tspace_type reg' space impl' dtype = Raise (TypeError msg).
Proof.
  intros H. destruct (tspace_type_field_check space dtype) as [[m Hm]|Hp].
  - rewrite Hm in H. now rewrite Hm.
  - rewrite Hp, tspace_type_without_dtype in H.
    now destruct (reg !! impl).
Qed.

(** X3.  Registering and unregistering a backend.  For a call that passes
    the field check: once [T] is registered under [impl] the call returns
    [T]; once [impl] is removed it raises [NotImplementedError]; and
    neither change affects the calls for other backend names. *)
Theorem tspace_type_register reg space impl T (dtype : option Dtype) :
  is_TypeError (tspace_type reg space impl dtype) = false ->
  tspace_type (<[impl := T]> reg) space impl dtype = Return T /\
  tspace_type (delete impl reg) space impl dtype =
    Raise (NotImplementedError (no_tspace_msg space impl)) /\
  forall impl', impl' <> impl ->
    tspace_type (<[impl := T]> reg) space impl' dtype =
      tspace_type reg space impl' dtype /\
    tspace_type (delete impl reg) space impl' dtype =
      tspace_type reg space impl' dtype.
Proof.
  intros H. destruct (tspace_type_field_check space dtype) as [[m Hm]|Hp].
  - now rewrite Hm in H.
  - rewrite !Hp, !tspace_type_without_dtype.
    rewrite lookup_insert_eq, lookup_delete_eq. repeat split.
    + rewrite !Hp, !tspace_type_without_dtype.
      now rewrite lookup_insert_ne by congruence.
    + rewrite !Hp, !tspace_type_without_dtype.
      now rewrite lookup_delete_ne by congruence.
Qed.
End SelectorMore.

(** ** Equality of spaces as a relation *)

Section SpaceMore.
Context {Obj Dtype F : Type}.
Context `{!PyObject Obj, !Repr Obj, !SetCapability Obj,
          !TensorSpaceCapability Obj Dtype F,
          !TensorCapability Dtype F, !BaseClasses Obj Dtype F}.
Implicit Types (self a b c : DiscretizedSpace Obj Dtype)
  (x y : DiscretizedSpaceElement Obj Dtype) (st : Store F).


Lemma is_true_same a b : same_object a b -> is_ b a = true -> a = b.
Proof.
  intros Hs H. unfold is_ in H. apply bool_decide_eq_true in H.
  symmetry in H. now apply Hs.
Qed.


(** X5.  [==] on spaces is transitive when the equalities it is built
    from are, with one object per identity. *)
Theorem DiscretizedSpace__eq__trans a b c :
  EqTransLaws ->
  same_object a b -> same_object b c ->
  DiscretizedSpace__eq__ a (Some b) = true ->
  DiscretizedSpace__eq__ b (Some c) = true ->
  DiscretizedSpace__eq__ a (Some c) = true.
Proof.
  intros L Hab Hbc H1 H2.
  destruct (is_ b a) eqn:Eba.
  { apply (is_true_same _ _ Hab) in Eba. now subst b. }
  destruct (is_ c b) eqn:Ecb.
  { apply (is_true_same _ _ Hbc) in Ecb. now subst c. }
  cbn in *. rewrite Eba in H1. rewrite Ecb in H2.
  destruct (is_ c a); [reflexivity|].
  apply andb_true_iff in H1 as [H1 Ht1]. apply andb_true_iff in H1 as [Hb1 Hf1].
  apply andb_true_iff in H2 as [H2 Ht2]. apply andb_true_iff in H2 as [Hb2 Hf2].
  rewrite (base_eq_transitive L a b c Hb1 Hb2),
    (obj_eq_transitive L _ _ _ Hf2 Hf1), (obj_eq_transitive L _ _ _ Ht2 Ht1).
  reflexivity.
Qed.

(** What a constructor call returns, when it returns. *)
Lemma new_DiscretizedSpace_inv (i : positive) (k : string) (f t : Obj) a :
  new_DiscretizedSpace i k f t = Return a ->
  a = mkDiscretizedSpace i k (ts_shape t) (ts_dtype t) f t.
Proof.
  unfold new_DiscretizedSpace.
  destruct (isinstance_Set f) eqn:Hf.
  - destruct (isinstance_TensorSpace t) eqn:Ht.
    + rewrite DiscretizedSpace__init__ok by assumption.
      unfold get_shape, get_dtype, get_fspace, get_tspace.
      simplify_map_eq. congruence.
    + unfold DiscretizedSpace__init__. rewrite Hf, Ht. discriminate.
  - unfold DiscretizedSpace__init__. rewrite Hf. discriminate.
Qed.

(** X6.  Equality is structural, not identity: two spaces of one class
    constructed separately from the same [fspace] and [tspace] are equal
    and have equal hashes. *)
Theorem equal_arguments_equal_spaces (i j : positive) (k : string) (f t : Obj) a b :
  EqHashLaws -> TensorSpace_eq_structural ->
  new_DiscretizedSpace i k f t = Return a ->
  new_DiscretizedSpace j k f t = Return b ->
  DiscretizedSpace__eq__ a (Some b) = true /\
  DiscretizedSpace__hash__ a = DiscretizedSpace__hash__ b.
Proof.
  intros L S Ha Hb.
  apply new_DiscretizedSpace_inv in Ha. apply new_DiscretizedSpace_inv in Hb.
  assert (Hbase : TensorSpace__eq__ a b = true) by (apply S; now subst).
  split.
  - cbn. destruct (is_ b a); [reflexivity|].
    rewrite Hbase. subst. cbn. now rewrite !(obj_eq_refl L).
  - apply DiscretizedSpace__hash__triple.
    + now apply (TensorSpace_hash_eq L).
    + now subst.
    + now subst.
Qed.

(** ** Equality of elements *)

(** X7.  The outcomes of [==] on elements.  For a right operand that is
    not a member of the space the result is [False], and [other.tensor]
    is not looked at; for an element operand the result is a truth
    value; the only error is the [AttributeError] of a member without a
    [tensor] attribute. *)
Theorem DiscretizedSpaceElement__eq__outcomes x (other : Operand Obj Dtype) st :
  (TensorSpace__contains__ (space x) other = false ->
     DiscretizedSpaceElement__eq__ x other st = Return false) /\
  (forall y, other = OElement y ->
     exists r : bool, DiscretizedSpaceElement__eq__ x other st = Return r) /\
  (forall e, DiscretizedSpaceElement__eq__ x other st = Raise e ->
     e = AttributeError "tensor" /\
     TensorSpace__contains__ (space x) other = true /\
     exists o, other = OObject o /\ obj_tensor o = None).
Proof.
  unfold DiscretizedSpaceElement__eq__. split; [|split].
  - now intros ->.
  - intros y ->. destruct (TensorSpace__contains__ _ _); cbn; eauto.
  - intros e H.
    destruct (TensorSpace__contains__ _ _); [|discriminate].
    destruct other as [y|o]; cbn in H; [discriminate|].
    destruct (obj_tensor o) eqn:Ho; cbn in H; [discriminate|].
    injection H as <-. repeat split. now exists o.
Qed.

(** X8.  Two elements of a space that wrap one storage handle are equal;
    in particular an element equals itself.  This needs the space to
    count its elements as members and the handle to be live. *)
Theorem equal_handles_equal_elements x y st (d : list F) :
  tensor_eq_contract -> contains_own_elements (space x) ->
  space y = space x -> tensor y = tensor x -> st !! tensor x = Some d ->
  DiscretizedSpaceElement__eq__ x (OElement y) st = Return true.
Proof.
  intros Hc Hm Hs Ht Hd.
  rewrite DiscretizedSpaceElement__eq__element, (Hm y Hs), Ht. cbn.
  f_equal. apply Hc. now exists d.
Qed.
End SpaceMore.

(** ** The [examples] generator and [copy] *)

Section GeneratorFacts.
Context {Obj Dtype F : Type}.
Context `{!PyObject Obj, !Repr Obj, !SetCapability Obj,
          !TensorSpaceCapability Obj Dtype F,
          !TensorCapability Dtype F, !BaseClasses Obj Dtype F}.
Implicit Types (self : DiscretizedSpace Obj Dtype)
  (x y : DiscretizedSpaceElement Obj Dtype) (st : Store F)
  (items : list (string * Obj))
  (acc : list (string * DiscretizedSpaceElement Obj Dtype)).

(** The first [next] starts the loop over [fspace.examples]. *)
Lemma examples_next_start self st :
  examples_next self (examples self) st =
  examples_next self (Suspended (fs_examples (fspace self))) st.
Proof. reflexivity. Qed.

(** Draining a suspended generator, with the pairs already received. *)
Lemma collect_suspended (n : nat) self items st acc :
  length items < n ->
  collect n self (Suspended items) st acc =
  Some match discretize_all self items st with
       | (Return l, st') => (Return (rev acc ++ l)%list, st')
       | (Raise err, st') => (Raise err, st')
       end.
Proof.
  revert n st acc. induction items as [|[name elem] rest IH]; intros n st acc Hn.
  - destruct n as [|n]; [lia|]. cbn. now rewrite app_nil_r.
  - destruct n as [|n]; [cbn in Hn; lia|]. cbn in Hn. cbn.
    destruct (element self (Some (InpObj elem)) st) as [[e|err] st1]; [|reflexivity].
    rewrite IH by lia.
    destruct (discretize_all self rest st1) as [[l|err] st2]; [|reflexivity].
    cbn. now rewrite <- app_assoc.
Qed.

(** X9.  [list(space.examples)] discretizes the examples of [fspace] one
    after the other in their order, each call of [element] starting from
    the store the previous one left, and stops at the first call that
    raises: the examples after it are not discretized.  Any bound on the
    number of [next] calls above the number of examples suffices. *)
Theorem collect_examples (n : nat) self st :
  length (fs_examples (fspace self)) < n ->
  collect n self (examples self) st [] =
  Some (discretize_all self (fs_examples (fspace self)) st).
Proof.
  intros Hn. destruct n as [|n]; [lia|].
  change (collect (S n) self (examples self) st [])
    with (collect (S n) self (Suspended (fs_examples (fspace self))) st []).
  rewrite collect_suspended by assumption.
  now destruct (discretize_all _ _ _) as [[l|err] st'].
Qed.

(** When [element] returns on every value of the list, all are
    discretized and the names come out unchanged. *)
Lemma discretize_all_names self items st :
  (forall name elem st0, (name, elem) ∈ items ->
     is_Return (element self (Some (InpObj elem)) st0).1 = true) ->
  exists l st', discretize_all self items st = (Return l, st') /\
                l.*1 = items.*1.
Proof.
  revert st. induction items as [|[name elem] rest IH]; intros st Htot.
  - now exists [], st.
  - cbn. assert (Hhd := Htot name elem st ltac:(left)).
    destruct (element self (Some (InpObj elem)) st) as [[e|err] st1];
      [|discriminate].
    destruct (IH st1) as (l & st2 & -> & Hl).
    { intros name' elem' st0 Hin. apply (Htot name' elem' st0). now right. }
    exists ((name, e) :: l), st2. split; [reflexivity|]. cbn. now rewrite Hl.
Qed.

(** X10.  On a space whose [element] returns for every example value of
    [fspace] (whatever it does on other inputs), [list(space.examples)]
    has one pair per example, with the same names in the same order. *)
Theorem examples_names self st :
  (forall name elem st0, (name, elem) ∈ fs_examples (fspace self) ->
     is_Return (element self (Some (InpObj elem)) st0).1 = true) ->
  exists l st',
    collect (S (length (fs_examples (fspace self)))) self (examples self) st [] =
      Some (Return l, st') /\
    l.*1 = (fs_examples (fspace self)).*1 /\
    length l = length (fs_examples (fspace self)).
Proof.
  intros Htot.
  destruct (discretize_all_names self (fs_examples (fspace self)) st Htot)
    as (l & st' & Hd & Hl).
  exists l, st'. split; [|split; [exact Hl|]].
  - change (collect _ self (examples self) st [])
      with (collect (S (length (fs_examples (fspace self)))) self
              (Suspended (fs_examples (fspace self))) st []).
    rewrite collect_suspended by lia. now rewrite Hd.
  - rewrite <- (length_fmap fst l), Hl. apply length_fmap.
Qed.

(** X11.  On a space whose class does not override [element], the first
    [next] on [space.examples] raises the [NotImplementedError] of the
    abstract method as soon as [fspace] has an example, leaving the store
    as it was and the generator exhausted; when [fspace] has none it
    stops at once without an error. *)
Theorem examples_abstract self st :
  element_override (cls self) = None ->
  examples_next self (examples self) st =
    match fs_examples (fspace self) with
    | [] => (Return None, Finished, st)
    | _ :: _ => (Raise (NotImplementedError "abstract method"), Finished, st)
    end /\
  examples_next self Finished st = (Return None, Finished, st).
Proof.
  intros Habs. split; [|reflexivity].
  unfold examples_next, examples, element. rewrite Habs.
  now destruct (fs_examples (fspace self)) as [|[name elem] rest].
Qed.

(** What [copy] returns on a space whose [element] wraps handles. *)
Lemma copy_wraps x st (t : loc) st' :
  element_wraps (space x) ->
  tensor_copy (tensor x) st = (Return t, st') ->
  copy x st = (Return (mkElement (space x) t), st').
Proof.
  intros (f & Hf & Hw) Hc.
  unfold copy, element, mbind, Py_bind. now rewrite Hc, Hf, Hw.
Qed.

(** X12.  [copy] is deep.  On a space whose [element] wraps the handle it
    is given, and for handles whose [copy] allocates, the copy of an
    element is an element of the same space with a different storage
    handle holding the same entries; no array that existed changes, and
    overwriting the copy leaves the entries of the original alone. *)
Theorem copy_is_deep x st (d : list F) :
  tensor_copy_contract -> element_wraps (space x) ->
  st !! tensor x = Some d ->
  exists y st',
    copy x st = (Return y, st') /\
    space y = space x /\ tensor y <> tensor x /\
    st' !! tensor y = Some d /\ st' !! tensor x = Some d /\
    (forall l : loc, l <> tensor y -> st' !! l = st !! l) /\
    (forall d' : list F, <[tensor y := d']> st' !! tensor x = Some d).
Proof.
  intros Hcopy Hw Hd.
  destruct (Hcopy (tensor x) st d Hd) as (l & Hfresh & Hc).
  assert (Hne : l <> tensor x) by congruence.
  exists (mkElement (space x) l), (<[l := d]> st). cbn.
  split; [now apply copy_wraps|].
  split; [reflexivity|]. split; [exact Hne|].
  split; [apply lookup_insert_eq|].
  split; [now rewrite lookup_insert_ne|].
  split.
  - intros l' Hl'. now rewrite lookup_insert_ne.
  - intros d'. now rewrite !lookup_insert_ne.
Qed.

(** X13.  An element and its copy are equal: on such a space that counts
    its elements as members, and for handles compared entry by entry,
    [x.copy() == x] and [x == x.copy()] hold in the store [copy] left. *)
Theorem copy_equals_original x st (d : list F) :
  tensor_copy_contract -> tensor_eq_contract ->
  element_wraps (space x) -> contains_own_elements (space x) ->
  st !! tensor x = Some d ->
  exists y st',
    copy x st = (Return y, st') /\
    DiscretizedSpaceElement__eq__ y (OElement x) st' = Return true /\
    DiscretizedSpaceElement__eq__ x (OElement y) st' = Return true.
Proof.
  intros Hcopy Heq Hw Hm Hd.
  destruct (Hcopy (tensor x) st d Hd) as (l & Hfresh & Hc).
  assert (Hne : l <> tensor x) by congruence.
  exists (mkElement (space x) l), (<[l := d]> st).
  split; [now apply copy_wraps|].
  rewrite !DiscretizedSpaceElement__eq__element. cbn.
  rewrite !Hm by reflexivity. cbn.
  split; f_equal; apply Heq; exists d;
    (split; [apply lookup_insert_eq || now rewrite lookup_insert_ne
            |apply lookup_insert_eq || now rewrite lookup_insert_ne]).
Qed.
End GeneratorFacts.

(** ** The further properties on the concrete backend *)

Lemma demo_order_laws : @EqOrderLaws demo_obj np_dtype Z _ _.
Proof.
  split.
  - intros a b. cbn. f_equal; [f_equal|]; apply bool_decide_ext; split; congruence.
  - intros a b c H1 H2. cbn in *.
    apply andb_true_iff in H1 as [H1 Hd1]. apply andb_true_iff in H1 as [Hc1 Hs1].
    apply andb_true_iff in H2 as [H2 Hd2]. apply andb_true_iff in H2 as [Hc2 Hs2].
    apply bool_decide_eq_true in Hd1, Hc1, Hs1, Hd2, Hc2, Hs2.
    rewrite !bool_decide_eq_true_2 by congruence. reflexivity.
  - intros o1 o2. cbn. apply bool_decide_ext. split; congruence.
  - intros o1 o2 o3 H1 H2. cbn in *.
    apply bool_decide_eq_true in H1, H2. apply bool_decide_eq_true. congruence.
Qed.

Lemma demo_eq_structural : @TensorSpace_eq_structural demo_obj np_dtype Z _.
Proof.
  intros a b Hc Hs Hd. cbn. now rewrite !bool_decide_eq_true_2.
Qed.

Lemma demo_copy_contract : @tensor_copy_contract np_dtype Z _.
Proof.
  intros t st d Hd. exists (fresh (dom st)). split.
  - apply not_elem_of_dom. apply is_fresh.
  - cbn. now rewrite Hd.
Qed.

Lemma demo_element_wraps : element_wraps (F := Z) lp_space.
Proof.
  eexists. split; [reflexivity|]. intros t st. reflexivity.
Qed.

Lemma demo_contains_own (sp : DiscretizedSpace demo_obj np_dtype) :
  contains_own_elements (F := Z) sp.
Proof. intros x Hx. cbn. now apply bool_decide_eq_true. Qed.

Lemma demo_element_total (elem : demo_obj) (st0 : Store Z) :
  is_Return (element lp_space (Some (InpObj elem)) st0).1 = true.
Proof. reflexivity. Qed.

Lemma tspace_type_field_check_first_witness :
  tspace_type (∅ : gmap string backend) complex_space "cuda" (Some float32) =
    Raise (TypeError (real_msg float32 (VClass ComplexNumbers))).
Proof.
  apply (tspace_type_field_check_first registry ∅ complex_space "numpy" "cuda"
           (Some float32)).
  reflexivity.
Defined.

Lemma tspace_type_register_witness :
  tspace_type (<["numpy" := NumpyTensorSpace]> ∅) real_space "numpy" (Some float64) =
    Return NumpyTensorSpace.
Proof.
  destruct (tspace_type_register (∅ : gmap string backend) real_space "numpy"
              NumpyTensorSpace (Some float64)) as [H _].
  - reflexivity.
  - exact H.
Defined.


Lemma demo_trans_laws : @EqTransLaws demo_obj np_dtype Z _ _.
Proof.
  split.
  - apply (TensorSpace_eq_trans demo_order_laws).
  - apply (obj_eq_trans demo_order_laws).
Qed.

(** Three distinct objects: the conclusion compares the first with the
    third, which are not identical. *)
Lemma DiscretizedSpace__eq__trans_witness :
  is_ third_space abstract_space = false /\
  DiscretizedSpace__eq__ abstract_space (Some third_space) = true.
Proof.
  split; [reflexivity|].
  apply (DiscretizedSpace__eq__trans abstract_space twin_space third_space
           demo_trans_laws).
  - intros [=].
  - intros [=].
  - reflexivity.
  - reflexivity.
Defined.

Lemma equal_arguments_equal_spaces_witness :
  DiscretizedSpace__eq__ abstract_space (Some twin_space) = true /\
  DiscretizedSpace__hash__ abstract_space = DiscretizedSpace__hash__ twin_space.
Proof.
  apply (equal_arguments_equal_spaces 1 3 "DiscretizedSpace"
           (DFunctionSpace "L2") (DRn 3) abstract_space twin_space
           demo_laws demo_eq_structural); reflexivity.
Defined.

Lemma DiscretizedSpaceElement__eq__outcomes_witness :
  DiscretizedSpaceElement__eq__ (mkElement abstract_space 1) (OObject (DInt 0))
    demo_store = Return false.
Proof.
  apply (proj1 (DiscretizedSpaceElement__eq__outcomes (mkElement abstract_space 1)
                  (OObject (DInt 0)) demo_store)).
  reflexivity.
Defined.

Lemma equal_handles_equal_elements_witness :
  DiscretizedSpaceElement__eq__ (mkElement abstract_space 1)
    (OElement (mkElement abstract_space 1)) demo_store = Return true.
Proof.
  apply (equal_handles_equal_elements (mkElement abstract_space 1)
           (mkElement abstract_space 1) demo_store [1; 2; 3]%Z
           demo_tensor_eq_contract (demo_contains_own _)); reflexivity.
Defined.

Lemma collect_examples_witness :
  collect 3 lp_space (examples lp_space) demo_store [] =
  Some (discretize_all lp_space [("Zero", DInt 0); ("One", DInt 1)] demo_store).
Proof.
  assert (Hn : length (fs_examples (fspace lp_space)) < 3) by (cbn; lia).
  exact (collect_examples 3 lp_space demo_store Hn).
Defined.

Lemma examples_names_witness :
  is_Return (element (BaseClasses0 := strict_base) lp_space
               (Some (InpObj (DRn 0))) demo_store).1 = false /\
  exists l st',
    collect (BaseClasses0 := strict_base) 3 lp_space (examples lp_space)
      demo_store [] = Some (Return l, st') /\
    l.*1 = ["Zero"; "One"] /\ length l = 2.
Proof.
  split; [reflexivity|].
  assert (Htot : forall (name : string) (elem : demo_obj) (st0 : Store Z),
            (name, elem) ∈ fs_examples (fspace lp_space) ->
            is_Return (element (BaseClasses0 := strict_base) lp_space
                         (Some (InpObj elem)) st0).1 = true).
  { intros name elem st0 Hin. cbn in Hin.
    apply elem_of_cons in Hin as [[= -> ->]|Hin]; [reflexivity|].
    apply elem_of_cons in Hin as [[= -> ->]|Hin]; [reflexivity|].
    now apply elem_of_nil in Hin. }
  exact (examples_names (BaseClasses0 := strict_base) lp_space demo_store Htot).
Defined.

Lemma examples_abstract_witness :
  examples_next abstract_space (examples abstract_space) demo_store =
    (Raise (NotImplementedError "abstract method"), Finished, demo_store) /\
  examples_next abstract_space Finished demo_store =
    (Return None, Finished, demo_store).
Proof.
  assert (Habs : element_override (F := Z) (cls abstract_space) = None)
    by reflexivity.
  exact (examples_abstract abstract_space demo_store Habs).
Defined.

Lemma copy_is_deep_witness :
  exists y st',
    copy (mkElement lp_space 1) demo_store = (Return y, st') /\
    space y = lp_space /\ tensor y <> 1%positive /\
    st' !! tensor y = Some [1; 2; 3]%Z /\ st' !! 1%positive = Some [1; 2; 3]%Z /\
    (forall l : loc, l <> tensor y -> st' !! l = demo_store !! l) /\
    (forall d' : list Z, <[tensor y := d']> st' !! 1%positive = Some [1; 2; 3]%Z).
Proof.
  apply (copy_is_deep (mkElement lp_space 1) demo_store [1; 2; 3]%Z
           demo_copy_contract demo_element_wraps).
  reflexivity.
Defined.

Lemma copy_equals_original_witness :
  exists y st',
    copy (mkElement lp_space 1) demo_store = (Return y, st') /\
    DiscretizedSpaceElement__eq__ y (OElement (mkElement lp_space 1)) st' =
      Return true /\
    DiscretizedSpaceElement__eq__ (mkElement lp_space 1) (OElement y) st' =
      Return true.
Proof.
  apply (copy_equals_original (mkElement lp_space 1) demo_store [1; 2; 3]%Z
           demo_copy_contract demo_tensor_eq_contract demo_element_wraps
           (demo_contains_own _)).
  reflexivity.
Defined.

(** The generator on the two concrete spaces. *)
Example examples_of_lp_space :
  collect 3 lp_space (examples lp_space) demo_store [] =
  Some (Return [("Zero", mkElement lp_space 3); ("One", mkElement lp_space 4)],
        <[4%positive := [0; 0; 0]%Z]> (<[3%positive := [0; 0; 0]%Z]> demo_store)).
Proof. reflexivity. Qed.

Example examples_of_empty_space :
  examples_next empty_space (examples empty_space) demo_store =
    (Return None, Finished, demo_store).
Proof. reflexivity. Qed.
